(** * Raster resampling: [utils/raster_processing.py]

    A shallow embedding of [resample_raster] and of the numpy / xarray
    routines it calls, over Rocq's primitive binary64 floats (the [float64]
    of numpy), followed by the properties of the function. *)

From Stdlib Require Import ZArith String List Bool Lia Sorted.
From Stdlib Require Import Floats Uint63.
Import ListNotations.

Set Warnings "-inexact-float".
Local Open Scope Z_scope.

(** ** Python exceptions and the error monad *)

Inductive exn : Type :=
| IndexError
| ValueError (msg : string)
| OverflowError (msg : string).

Inductive result (A : Type) : Type :=
| Ok (a : A)
| Raise (e : exn).

Arguments Ok {A} a.
Arguments Raise {A} e.

Definition bind {A B : Type} (r : result A) (k : A -> result B) : result B :=
  match r with
  | Ok a => k a
  | Raise e => Raise e
  end.

Notation "x <- r ;; k" := (bind r (fun x => k))
  (at level 61, r at next level, right associativity).

(** ** Floats as Python sees them *)

Module Float64.

(** A finite float is [(-1)^s * m * 2^e].  [magnitude m e] is the integer
    part of [m * 2^e]; [has_fraction m e] tells whether bits were dropped. *)
Definition magnitude (m : positive) (e : Z) : Z :=
  match e with
  | Zneg p => Z.shiftr (Zpos m) (Zpos p)
  | _ => Z.shiftl (Zpos m) e
  end.

Definition has_fraction (m : positive) (e : Z) : bool :=
  match e with
  | Zneg p => negb (Z.shiftl (Z.shiftr (Zpos m) (Zpos p)) (Zpos p) =? Zpos m)
  | _ => false
  end.

(** What a conversion to an integer finds: NaN, an infinity, or an integer. *)
Inductive intpart : Type :=
| IsNaN
| IsInf (negative : bool)
| Int (z : Z).

Definition trunc (x : float) : intpart :=
  match Prim2SF x with
  | S754_nan => IsNaN
  | S754_infinity s => IsInf s
  | S754_zero _ => Int 0
  | S754_finite s m e =>
      let a := magnitude m e in Int (if s then - a else a)
  end.

Definition ceil (x : float) : intpart :=
  match Prim2SF x with
  | S754_nan => IsNaN
  | S754_infinity s => IsInf s
  | S754_zero _ => Int 0
  | S754_finite s m e =>
      let a := magnitude m e in
      Int (if s then - a else if has_fraction m e then a + 1 else a)
  end.

(** C's [signbit]. *)
Definition signbit (x : float) : bool :=
  match Prim2SF x with
  | S754_zero s | S754_infinity s | S754_finite s _ _ => s
  | S754_nan => false
  end.

(** The conversion of an array index to [double]. *)
Definition of_nat (n : nat) : float :=
  PrimFloat.of_uint63 (Uint63.of_Z (Z.of_nat n)).

End Float64.

(** Python's [int(x)] on a float. *)
Definition py_int (x : float) : result Z :=
  match Float64.trunc x with
  | Float64.IsNaN => Raise (ValueError "cannot convert float NaN to integer")
  | Float64.IsInf _ => Raise (OverflowError "cannot convert float infinity to integer")
  | Float64.Int z => Ok z
  end.

(** ** The labelled grid

    An [xarray.DataArray] with the two dimensions [lon] and [lat]:
    [values] holds one row per point of [lon], each row one cell per
    point of [lat]. *)

Record DataArray : Type := mkDataArray {
  lon : list float;
  lat : list float;
  values : list (list float)
}.

(** The invariant xarray keeps between the data and its coordinates. *)
Definition aligned (da : DataArray) : Prop :=
  length (values da) = length (lon da) /\
  Forall (fun row => length row = length (lat da)) (values da).

Definition cell (da : DataArray) (i j : nat) : float :=
  nth j (nth i (values da) []) nan.

(** [a[i]] on a coordinate. *)
Definition getitem (a : list float) (i : nat) : result float :=
  match nth_error a i with
  | Some x => Ok x
  | None => Raise IndexError
  end.

(** ** numpy's NaN-skipping reductions

    xarray reduces floating-point data with [skipna]: the mean of a window is
    [nanmean], the sum of the items that are not NaN over their count (NaN
    when there is none).  numpy does not fix the order of the additions; the
    model adds from left to right. *)

Definition sum (l : list float) : float :=
  match l with
  | [] => 0%float
  | x :: l' => fold_left PrimFloat.add l' x
  end.

Definition nanmean (l : list float) : float :=
  let kept := filter (fun x => negb (is_nan x)) l in
  (sum kept / Float64.of_nat (length kept))%float.

(** ** [coarsen(..., boundary="trim").mean()]

    Each dimension of size [n] is trimmed to [n / w] whole windows of [w]
    items, the array is reshaped into windows and every window is reduced
    to its mean.  The coordinates are reduced in the same way (xarray's
    default [coord_func]), so an output point is the mean of the points of
    its window. *)

Section Reshape.
Context {A : Type}.

(** [reshape n w l]: the first [n * w] items of [l] as [n] windows of
    [w] items. *)
Fixpoint reshape (n w : nat) (l : list A) : list (list A) :=
  match n with
  | O => []
  | S n' => firstn w l :: reshape n' w (skipn w l)
  end.

(** Trim to whole windows, then reshape. *)
Definition windows (w : nat) (l : list A) : list (list A) :=
  reshape (length l / w) w l.
End Reshape.

(** One output row: [rows] is a window of [lon_factor] rows, each cut into
    [n_lat] windows of [lat_factor] cells; output cell [j] is the mean over the
    [j]-th window of every row. *)
Definition block_means (n_lat lat_factor : nat) (rows : list (list float)) : list float :=
  let cols := map (reshape n_lat lat_factor) rows in
  map (fun j => nanmean (flat_map (fun c => nth j c []) cols)) (seq 0 n_lat).

Definition coarsen_mean (da : DataArray) (lat_factor lon_factor : nat) : DataArray :=
  {| lon := map nanmean (windows lon_factor (lon da));
     lat := map nanmean (windows lat_factor (lat da));
     values := map (block_means (length (lat da) / lat_factor) lat_factor)
                   (windows lon_factor (values da)) |}.

(** ** [min] / [max] of a coordinate

    xarray skips NaN: the reductions are numpy's [fmin.reduce] and
    [fmax.reduce], which have no identity. *)

Definition fmin (a b : float) : float :=
  if is_nan b then a else if is_nan a then b else if (b <? a)%float then b else a.

Definition fmax (a b : float) : float :=
  if is_nan b then a else if is_nan a then b else if (a <? b)%float then b else a.

Definition reduce (f : float -> float -> float) (l : list float) : result float :=
  match l with
  | [] => Raise (ValueError "zero-size array to reduction operation which has no identity")
  | x :: l' => Ok (fold_left f l' x)
  end.

Definition nanmin : list float -> result float := reduce fmin.
Definition nanmax : list float -> result float := reduce fmax.

(** ** [numpy.arange(start, stop, step)] on doubles

    The length is [ceil((stop - start) / step)], checked against the range of
    the index type; the array is filled with [start], [start + step] and then
    [start + i * delta], where [delta] is the difference of the first two
    items.  Memory limits are not modelled. *)

Definition intp_min : Z := - 2 ^ 63.
Definition intp_max_as_double : Z := 2 ^ 63.

(** The quotient is zero although the numerator is not. *)
Definition arange_underflow (start stop step : float) : bool :=
  let next := (stop - start)%float in
  let val := (next / step)%float in
  (val =? 0)%float && negb (next =? 0)%float.

Definition arange_length (start stop step : float) : result nat :=
  let val := ((stop - start) / step)%float in
  if arange_underflow start stop step then
    Ok (if Float64.signbit val then 0%nat else 1%nat)
  else
    match Float64.ceil val with
    | Float64.IsNaN => Raise (ValueError "arange: cannot compute length")
    | Float64.IsInf _ => Raise (OverflowError "arange: overflow while computing length")
    | Float64.Int z =>
        if (intp_min <=? z) && (z <=? intp_max_as_double)
        then Ok (Z.to_nat z)
        else Raise (OverflowError "arange: overflow while computing length")
    end.

Definition arange_item (start next : float) (i : nat) : float :=
  match i with
  | O => start
  | S O => next
  | _ => (start + Float64.of_nat i * (next - start))%float
  end.

Definition arange (start stop step : float) : result (list float) :=
  length <- arange_length start stop step ;;
  Ok (map (arange_item start (start + step)%float) (seq 0 length)).

(** ** The function *)

(** The two errors the function raises itself. *)
Definition InvalidResolution : exn :=
  ValueError "Target resolution must be larger than current resolution for downsampling.".
Definition InvalidMethod : exn :=
  ValueError "Method must be 'downsample' or 'upsample'.".

Section Resample.

(** [interp_at da x y]: the value that xarray's linear interpolation of
    [da] takes at the location [(x, y)] (NaN outside the grid).  The
    floating-point formula is the interpolation library's and differs
    between its versions, so it is left open here. *)
Variable interp_at : DataArray -> float -> float -> float.

(** [da.interp(lon=new_lons, lat=new_lats)]: the interpolant on the
    Cartesian product of the new coordinates. *)
Definition interp (da : DataArray) (new_lons new_lats : list float) : DataArray :=
  {| lon := new_lons;
     lat := new_lats;
     values := map (fun x => map (fun y => interp_at da x y) new_lats) new_lons |}.

Definition resample_raster (da : DataArray) (target_resolution : float * float)
    (method : string) : result DataArray :=
  (* Get current resolution *)
  lon1 <- getitem (lon da) 1 ;;
  lon0 <- getitem (lon da) 0 ;;
  let lon_res := (lon1 - lon0)%float in
  lat1 <- getitem (lat da) 1 ;;
  lat0 <- getitem (lat da) 0 ;;
  let lat_res := (lat1 - lat0)%float in
  (* Target resolution *)
  let '(target_lon_res, target_lat_res) := target_resolution in
  if (method =? "downsample")%string then
    lon_factor <- py_int (target_lon_res / lon_res)%float ;;
    lat_factor <- py_int (target_lat_res / lat_res)%float ;;
    if (lon_factor <? 1) || (lat_factor <? 1) then
      Raise InvalidResolution
    else
      Ok (coarsen_mean da (Z.to_nat lat_factor) (Z.to_nat lon_factor))
  else if (method =? "upsample")%string then
    lon_min <- nanmin (lon da) ;;
    lon_max <- nanmax (lon da) ;;
    new_lons <- arange lon_min lon_max target_lon_res ;;
    lat_min <- nanmin (lat da) ;;
    lat_max <- nanmax (lat da) ;;
    new_lats <- arange lat_min lat_max target_lat_res ;;
    Ok (interp da new_lons new_lats)
  else
    Raise InvalidMethod.

End Resample.

(** ** Vocabulary of the statements *)

(** The current resolution, as the function derives it. *)
Definition lon_step (da : DataArray) : float :=
  (nth 1 (lon da) nan - nth 0 (lon da) nan)%float.
Definition lat_step (da : DataArray) : float :=
  (nth 1 (lat da) nan - nth 0 (lat da) nan)%float.

(** Minimum and maximum of a non-empty coordinate. *)
Definition axis_min (l : list float) : float := fold_left fmin (tl l) (hd nan l).
Definition axis_max (l : list float) : float := fold_left fmax (tl l) (hd nan l).

(** The same coordinates over other data. *)
Definition with_values (da : DataArray) (vs : list (list float)) : DataArray :=
  {| lon := lon da; lat := lat da; values := vs |}.

(** The cells of the [lon_factor] x [lat_factor] block number [(i, j)]. *)
Definition block (da : DataArray) (lon_factor lat_factor i j : nat) : list float :=
  flat_map (fun a => map (fun b => cell da (i * lon_factor + a) (j * lat_factor + b))
                         (seq 0 lat_factor))
           (seq 0 lon_factor).

(** [shape da n m]: [n] rows of [m] cells. *)
Definition shape (da : DataArray) (n m : nat) : Prop :=
  length (values da) = n /\ Forall (fun row => length row = m) (values da).

Definition flt (a b : float) : Prop := (a <? b)%float = true.



(** An interpolation that returns NaN everywhere, for the examples whose
    interest is in the coordinates. *)
Definition interp_nan (_ : DataArray) (_ _ : float) : float := nan.

(** A piecewise-linear interpolation on ascending coordinates, in the manner
    of scipy's [interp1d]: along [lon] first, then along [lat]; NaN outside
    the coordinates.  It instantiates [interp_at] where a statement is run on
    a concrete grid. *)
Fixpoint searchsorted (xs : list float) (x : float) : nat :=
  match xs with
  | [] => O
  | y :: xs' => if (y <? x)%float then S (searchsorted xs' x) else O
  end.

Definition interp1d (xs ys : list float) (x : float) : float :=
  if (nth 0 xs nan <=? x)%float && (x <=? last xs nan)%float then
    let hi := Nat.max 1 (Nat.min (searchsorted xs x) (length xs - 1)) in
    let lo := (hi - 1)%nat in
    let slope := ((nth hi ys nan - nth lo ys nan) / (nth hi xs nan - nth lo xs nan))%float in
    (slope * (x - nth lo xs nan) + nth lo ys nan)%float
  else nan.

Definition interp_linear (da : DataArray) (x y : float) : float :=
  interp1d (lat da)
    (map (fun j => interp1d (lon da) (map (fun row => nth j row nan) (values da)) x)
         (seq 0 (length (lat da))))
    y.

(** ** Grids used as examples *)

Definition ones4 : DataArray :=
  {| lon := [0; 1; 2; 3]%float;
     lat := [0; 1; 2; 3]%float;
     values := repeat (repeat 1%float 4) 4 |}.

Definition grid3 : DataArray :=
  {| lon := [0; 1; 2]%float;
     lat := [10; 20; 30]%float;
     values := [[1; 2; 3]; [4; 5; 6]; [7; 8; 10]]%float |}.


(** A descending [lon] coordinate. *)
Definition grid_desc : DataArray :=
  {| lon := [3; 2; 1; 0]%float;
     lat := [0; 1]%float;
     values := [[1; 2]; [3; 4]; [5; 6]; [7; 8]]%float |}.




(** ** The statements that do not hold as worded *)

Section Worded.
Variable interp_at : DataArray -> float -> float -> float.







End Worded.

(** ** Vocabulary of the further properties *)

(** Not positive: a negative zero, a negative number, the negative
    infinity, or NaN. *)
Definition not_positive (x : spec_float) : Prop :=
  match x with
  | S754_zero s | S754_infinity s | S754_finite s _ _ => s = true
  | S754_nan => True
  end.

(** The conversions that [int] refuses. *)
Definition conversion_error (e : exn) : Prop :=
  e = ValueError "cannot convert float NaN to integer" \/
  e = OverflowError "cannot convert float infinity to integer".


(** The factors that downsampling to [target] computes are [f_lon] and
    [f_lat], both at least 1. *)
Definition computed_factors (da : DataArray) (target : float * float)
    (f_lon f_lat : nat) : Prop :=
  py_int (fst target / lon_step da)%float = Ok (Z.of_nat f_lon) /\
  py_int (snd target / lat_step da)%float = Ok (Z.of_nat f_lat) /\
  (1 <= f_lon)%nat /\ (1 <= f_lat)%nat.

(** The errors of [arange]. *)
Definition arange_error (e : exn) : Prop :=
  e = ValueError "arange: cannot compute length" \/
  e = OverflowError "arange: overflow while computing length".

(** ** Grids used as examples of the further properties *)

(** The first two points of [lon] coincide. *)
Definition grid_dup : DataArray :=
  {| lon := [5; 5; 6]%float;
     lat := [0; 1]%float;
     values := [[1; 2]; [3; 4]; [5; 6]]%float |}.

(** Five points along [lon]: with the factor 2 the last row is beyond the
    last whole block.  [grid5_other] differs from [grid5] in that row only. *)
Definition grid5 : DataArray :=
  {| lon := [0; 1; 2; 3; 4]%float;
     lat := [0; 1]%float;
     values := [[1; 2]; [3; 4]; [5; 6]; [7; 8]; [9; 10]]%float |}.

Definition grid5_other : DataArray :=
  {| lon := [0; 1; 2; 3; 4]%float;
     lat := [0; 1]%float;
     values := [[1; 2]; [3; 4]; [5; 6]; [7; 8]; [-1; nan]]%float |}.

(** The second column is missing in the first two rows. *)
Definition grid_gap : DataArray :=
  {| lon := [0; 1; 2; 3]%float;
     lat := [0; 1]%float;
     values := [[1; nan]; [3; nan]; [5; 6]; [7; 8]]%float |}.

(** * Facts about binary64 arithmetic

    Derived from the specification of the primitive operations in
    [FloatAxioms]. *)

Module Float64Facts.



(** *** Comparisons *)

Lemma SFcompare_refl x : x <> S754_nan -> SFcompare x x = Some Eq.
Proof.
  destruct x as [s|s| |s m e]; cbn; try congruence; try (destruct s; reflexivity).
  intros _. rewrite Z.compare_refl, Pos.compare_cont_refl. now destruct s.
Qed.



Lemma is_nan_spec x : is_nan x = true <-> Prim2SF x = S754_nan.
Proof.
  unfold is_nan. rewrite FloatAxioms.eqb_spec. unfold SFeqb. split.
  - intros H. destruct (Prim2SF x) eqn:E; try reflexivity;
      rewrite SFcompare_refl in H by congruence; discriminate.
  - intros ->. reflexivity.
Qed.


Lemma ltb_not_nan x y :
  (x <? y)%float = true -> is_nan x = false /\ is_nan y = false.
Proof.
  rewrite FloatAxioms.ltb_spec. unfold SFltb. intros H.
  split; apply not_true_is_false; rewrite is_nan_spec; intros E; rewrite E in H.
  - discriminate.
  - now destruct (Prim2SF x).
Qed.




(** *** Division of a number by itself *)


(** *** Conversions to integers *)


Lemma magnitude_nonneg m e : 0 <= Float64.magnitude m e.
Proof.
  unfold Float64.magnitude. destruct e.
  - apply Z.shiftl_nonneg. lia.
  - apply Z.shiftl_nonneg. lia.
  - apply Z.shiftr_nonneg. lia.
Qed.


(** A quotient by zero is NaN or infinite. *)
Lemma div_by_zero x z :
  (z =? 0)%float = true ->
  Prim2SF (x / z) = S754_nan \/ exists s, Prim2SF (x / z) = S754_infinity s.
Proof.
  rewrite FloatAxioms.eqb_spec, FloatAxioms.div_spec. unfold SFeqb.
  change (Prim2SF 0) with (S754_zero false).
  destruct (Prim2SF z) as [t|t| |t n f]; cbn; try discriminate.
  - intros _. destruct (Prim2SF x) as [s|s| |s m e]; cbn; eauto.
  - destruct t; discriminate.
  - destruct t; discriminate.
Qed.

End Float64Facts.

(** * Facts about windows *)

Section ReshapeFacts.
Context {A : Type}.
Implicit Types (l : list A) (n w i k : nat).

Lemma reshape_length n w l : length (reshape n w l) = n.
Proof.
  revert l. induction n as [|n IH]; intros l; cbn; [reflexivity|].
  now rewrite IH.
Qed.

Lemma nth_reshape n w l i :
  (i < n)%nat -> nth i (reshape n w l) [] = firstn w (skipn (i * w) l).
Proof.
  revert l i. induction n as [|n IH]; intros l i Hi; [lia|].
  destruct i as [|i]; cbn [reshape nth].
  - reflexivity.
  - rewrite IH by lia. cbn [Nat.mul]. now rewrite skipn_skipn, Nat.add_comm.
Qed.

Lemma firstn_skipn_nth (d : A) w k l :
  (k + w <= length l)%nat ->
  firstn w (skipn k l) = map (fun a => nth (k + a) l d) (seq 0 w).
Proof.
  intros H. apply nth_ext with (d := d) (d' := nth (k + 0) l d).
  - rewrite length_firstn, length_skipn, length_map, length_seq. lia.
  - intros a Ha. rewrite length_firstn, length_skipn in Ha.
    rewrite nth_firstn.
    replace (a <? w)%nat with true by (symmetry; apply Nat.ltb_lt; lia).
    rewrite nth_skipn.
    rewrite (map_nth (fun a => nth (k + a) l d)), seq_nth by lia. reflexivity.
Qed.

Lemma windows_length w l : length (windows w l) = (length l / w)%nat.
Proof. apply reshape_length. Qed.

Lemma window_fits w i n : (i < n / w)%nat -> (i * w + w <= n)%nat.
Proof.
  intros H. destruct w as [|w]; [cbn in H; lia|].
  pose proof (Nat.Div0.mul_div_le n (S w)). nia.
Qed.

Lemma nth_windows (d : A) w l i :
  (i < length l / w)%nat ->
  nth i (windows w l) [] = map (fun a => nth (i * w + a) l d) (seq 0 w).
Proof.
  intros H. unfold windows. rewrite nth_reshape by assumption.
  apply firstn_skipn_nth. now apply window_fits.
Qed.




End ReshapeFacts.

(** * Facts about the coarsened grid *)

Lemma flat_map_map {A B C : Type} (f : B -> list C) (g : A -> B) (l : list A) :
  flat_map f (map g l) = flat_map (fun x => f (g x)) l.
Proof. induction l as [|x l IH]; cbn; [reflexivity|]. now rewrite IH. Qed.

Lemma flat_map_ext_in {A B : Type} (f g : A -> list B) (l : list A) :
  (forall x, In x l -> f x = g x) -> flat_map f l = flat_map g l.
Proof.
  induction l as [|x l IH]; cbn; intros H; [reflexivity|].
  rewrite (H x) by now left. rewrite IH; [reflexivity|]. intros y Hy. apply H. now right.
Qed.

Lemma coarsen_lon_length da lat_factor lon_factor :
  length (lon (coarsen_mean da lat_factor lon_factor)) = (length (lon da) / lon_factor)%nat.
Proof. cbn. now rewrite length_map, windows_length. Qed.

Lemma coarsen_lat_length da lat_factor lon_factor :
  length (lat (coarsen_mean da lat_factor lon_factor)) = (length (lat da) / lat_factor)%nat.
Proof. cbn. now rewrite length_map, windows_length. Qed.

Lemma coarsen_shape da lat_factor lon_factor :
  aligned da ->
  shape (coarsen_mean da lat_factor lon_factor)
        (length (lon da) / lon_factor) (length (lat da) / lat_factor).
Proof.
  intros [Hn _]. split; cbn.
  - now rewrite length_map, windows_length, Hn.
  - apply Forall_map, Forall_forall. intros rows _.
    unfold block_means. now rewrite length_map, length_seq.
Qed.

Lemma coarsen_cell da lat_factor lon_factor i j :
  aligned da ->
  (i < length (lon da) / lon_factor)%nat ->
  (j < length (lat da) / lat_factor)%nat ->
  cell (coarsen_mean da lat_factor lon_factor) i j
  = nanmean (block da lon_factor lat_factor i j).
Proof.
  intros [Hn Hm] Hi Hj. unfold cell at 1. cbn [values coarsen_mean].
  set (n_lat := (length (lat da) / lat_factor)%nat) in *.
  rewrite (nth_indep _ [] (block_means n_lat lat_factor []))
    by (rewrite length_map, windows_length, Hn; exact Hi).
  rewrite map_nth, (nth_windows []) by (rewrite Hn; exact Hi).
  unfold block_means.
  set (g := fun j0 => nanmean _).
  rewrite (nth_indep _ nan (g O)) by (rewrite length_map, length_seq; exact Hj).
  rewrite map_nth, seq_nth by exact Hj. subst g. cbn [Nat.add]. f_equal.
  rewrite !flat_map_map. unfold block. apply flat_map_ext_in.
  intros a Ha. apply in_seq in Ha.
  rewrite nth_reshape by exact Hj.
  pose proof (window_fits _ _ _ Hi) as Fi. pose proof (window_fits _ _ _ Hj) as Fj.
  assert (Hrow : length (nth (i * lon_factor + a) (values da) []) = length (lat da)).
  { rewrite Forall_forall in Hm. apply Hm, nth_In. lia. }
  rewrite (firstn_skipn_nth nan) by (rewrite Hrow; exact Fj).
  reflexivity.
Qed.

(** * Properties of [resample_raster] *)

Section Properties.
Variable interp_at : DataArray -> float -> float -> float.

Lemma getitem_nth (a : list float) (i : nat) :
  (i < length a)%nat -> getitem a i = Ok (nth i a nan).
Proof.
  intros H. unfold getitem.
  destruct (nth_error a i) eqn:E.
  - now rewrite (nth_error_nth _ _ _ E).
  - apply nth_error_None in E. lia.
Qed.

Lemma getitem_outside (a : list float) (i : nat) :
  (length a <= i)%nat -> getitem a i = Raise IndexError.
Proof.
  intros H. unfold getitem. now rewrite (proj2 (nth_error_None a i) H).
Qed.

(** With two points on each coordinate the function reaches the test of
    [method]. *)
Lemma resample_downsample da tl ta :
  (2 <= length (lon da))%nat -> (2 <= length (lat da))%nat ->
  resample_raster interp_at da (tl, ta) "downsample" =
  (lon_factor <- py_int (tl / lon_step da)%float ;;
   lat_factor <- py_int (ta / lat_step da)%float ;;
   if (lon_factor <? 1) || (lat_factor <? 1) then Raise InvalidResolution
   else Ok (coarsen_mean da (Z.to_nat lat_factor) (Z.to_nat lon_factor))).
Proof.
  intros Hn Hm. unfold resample_raster.
  rewrite !getitem_nth by lia. reflexivity.
Qed.

Lemma reduce_nonempty f l :
  (1 <= length l)%nat -> reduce f l = Ok (fold_left f (tl l) (hd nan l)).
Proof. destruct l; cbn; [lia|reflexivity]. Qed.

Lemma resample_upsample da tl ta :
  (2 <= length (lon da))%nat -> (2 <= length (lat da))%nat ->
  resample_raster interp_at da (tl, ta) "upsample" =
  (new_lons <- arange (axis_min (lon da)) (axis_max (lon da)) tl ;;
   new_lats <- arange (axis_min (lat da)) (axis_max (lat da)) ta ;;
   Ok (interp interp_at da new_lons new_lats)).
Proof.
  intros Hn Hm. unfold resample_raster.
  rewrite !getitem_nth by lia. cbn [bind String.eqb Ascii.eqb Bool.eqb].
  unfold nanmin, nanmax. rewrite !reduce_nonempty by lia. reflexivity.
Qed.

Lemma resample_other da target method :
  (2 <= length (lon da))%nat -> (2 <= length (lat da))%nat ->
  method <> "downsample"%string -> method <> "upsample"%string ->
  resample_raster interp_at da target method = Raise InvalidMethod.
Proof.
  intros Hn Hm Hd Hu. unfold resample_raster.
  rewrite !getitem_nth by lia. cbn [bind]. destruct target as [tl ta].
  apply String.eqb_neq in Hd, Hu. now rewrite Hd, Hu.
Qed.

(** ** Downsampling *)

(** C7. The 4 x 4 grid of ones on [lon = lat = [0, 1, 2, 3]], downsampled to
    the resolution [(2, 2)], becomes a 2 x 2 grid in which every value is 1. *)
Theorem downsample_ones4 :
  exists out,
    resample_raster interp_at ones4 (2, 2)%float "downsample" = Ok out /\
    shape out 2 2 /\
    values out = [[1; 1]; [1; 1]]%float /\
    forall i j, (i < 2)%nat -> (j < 2)%nat -> cell out i j = 1%float.
Proof.
  eexists. split; [vm_compute; reflexivity|].
  split; [split; [reflexivity | repeat constructor]|].
  split; [reflexivity|].
  intros [|[|i]] [|[|j]] Hi Hj; try lia; reflexivity.
Qed.

(** C8. If either coordinate has fewer than two points, the call fails with
    an indexing error while the current steps are computed, whatever the
    method is: the test of the method is never reached. *)
Theorem short_axis_index_error da target method :
  (length (lon da) < 2)%nat \/ (length (lat da) < 2)%nat ->
  resample_raster interp_at da target method = Raise IndexError.
Proof.
  intros H. unfold resample_raster.
  destruct (Nat.lt_ge_cases (length (lon da)) 2) as [Hn|Hn].
  - now rewrite (getitem_outside (lon da) 1) by lia.
  - rewrite !(getitem_nth (lon da)) by lia. cbn [bind].
    destruct H as [H|H]; [lia|].
    now rewrite (getitem_outside (lat da) 1) by lia.
Qed.


(** C5. On a raster with two points on each coordinate, a method other than
    downsample and upsample fails with the unsupported-method error; no grid
    is returned, and the outcome is the same whatever data the raster holds:
    the values are neither read nor changed. *)
Theorem unsupported_method_error da target method :
  (2 <= length (lon da))%nat -> (2 <= length (lat da))%nat ->
  method <> "downsample"%string -> method <> "upsample"%string ->
  resample_raster interp_at da target method = Raise InvalidMethod /\
  forall vs, resample_raster interp_at (with_values da vs) target method = Raise InvalidMethod.
Proof.
  intros Hn Hm Hd Hu. split.
  - now apply resample_other.
  - intros vs. now apply resample_other.
Qed.










(** ** Minimum and maximum of a monotone coordinate *)




Lemma fmax_gt x y : flt x y -> fmax x y = y.
Proof.
  intros H. unfold fmax. destruct (Float64Facts.ltb_not_nan _ _ H) as [Nx Ny].
  now rewrite Ny, Nx, H.
Qed.




Lemma last_indep (d d' : float) l : (1 <= length l)%nat -> last l d = last l d'.
Proof.
  induction l as [|y l IH]; cbn [length]; [lia|]. intros _.
  destruct l as [|z l]; [reflexivity|]. cbn [last] in *. apply IH. cbn. lia.
Qed.

Lemma last_cons (x d : float) l : last (x :: l) d = last l x.
Proof.
  destruct l as [|y l]; [reflexivity|].
  change (last (x :: y :: l) d) with (last (y :: l) d). apply last_indep. cbn. lia.
Qed.





Lemma fold_fmax_rising l x :
  StronglySorted flt (x :: l) -> fold_left fmax l x = last l x.
Proof.
  revert x. induction l as [|y l IH]; intros x H; [reflexivity|].
  apply StronglySorted_inv in H. destruct H as [Hs Hx].
  cbn [fold_left]. rewrite fmax_gt by (inversion Hx; assumption).
  rewrite (IH y Hs). now rewrite (last_cons y x).
Qed.



(** ** Facts about [arange] *)


Lemma arange_items start stop step l :
  arange start stop step = Ok l ->
  l = map (arange_item start (start + step)%float) (seq 0 (length l)).
Proof.
  unfold arange. destruct (arange_length start stop step) as [n|e]; cbn [bind]; [|discriminate].
  intros [= <-]. now rewrite length_map, length_seq.
Qed.



Lemma interp_shape da xs ys : shape (interp interp_at da xs ys) (length xs) (length ys).
Proof.
  split; cbn.
  - apply length_map.
  - apply Forall_map, Forall_forall. intros x _. apply length_map.
Qed.


(** ** Upsampling *)





End Properties.

(** * The statements on concrete grids *)


Lemma grid3_aligned : aligned grid3.
Proof. split; [reflexivity|]. repeat constructor. Qed.


Lemma short_axis_index_error_witness :
  resample_raster interp_nan
    {| lon := [0]%float; lat := [0; 1]%float; values := [[1; 2]]%float |}
    (1, 1)%float "nearest" = Raise IndexError.
Proof.
  apply (short_axis_index_error interp_nan). left. cbn. lia.
Defined.

Lemma unsupported_method_error_witness :
  resample_raster interp_nan grid3 (1, 10)%float "nearest" = Raise InvalidMethod /\
  forall vs,
    resample_raster interp_nan (with_values grid3 vs) (1, 10)%float "nearest"
    = Raise InvalidMethod.
Proof.
  apply (unsupported_method_error interp_nan grid3 (1, 10)%float "nearest");
    cbn; (lia || discriminate).
Defined.












(** * Inputs on which the statements as worded fail *)








(** * Further properties of [resample_raster] *)

(** ** More facts about binary64 arithmetic *)

Module Float64Signs.

(** Rounding keeps the sign it is given. *)
Lemma binary_round_aux_sign sx mx ex lx :
  match binary_round_aux prec emax sx mx ex lx with
  | S754_zero s | S754_infinity s | S754_finite s _ _ => s = sx
  | S754_nan => True
  end.
Proof.
  unfold binary_round_aux.
  destruct (shr_fexp prec emax mx ex lx) as [mrs e'].
  destruct (shr_fexp prec emax _ e' loc_Exact) as [mrs' e''].
  destruct (shr_m mrs'); [reflexivity| |exact I].
  now destruct (e'' <=? emax - prec).
Qed.

(** A quotient of a positive and a negative number, in either order, is
    not positive. *)
Lemma SFdiv_opposite_signs x y :
  (SFltb (S754_zero false) x = true /\ SFltb y (S754_zero false) = true) \/
  (SFltb x (S754_zero false) = true /\ SFltb (S754_zero false) y = true) ->
  not_positive (SF64div x y).
Proof.
  unfold SFltb.
  intros [[Hx Hy]|[Hx Hy]];
    destruct x as [s|s| |s m e], y as [t|t| |t n f];
    try discriminate; try (destruct s; discriminate); try (destruct t; discriminate);
    destruct s, t; try discriminate; try exact I; try reflexivity.
  all: unfold SF64div, SFdiv;
       destruct (SFdiv_core_binary prec emax (Z.pos m) e (Z.pos n) f) as [[mz ez] lz];
       cbn [xorb];
       pose proof (binary_round_aux_sign true mz ez lz) as S;
       destruct (binary_round_aux prec emax true mz ez lz); cbn; assumption.
Qed.

Lemma py_int_not_positive q z :
  not_positive (Prim2SF q) -> py_int q = Ok z -> z < 1.
Proof.
  unfold py_int, Float64.trunc.
  destruct (Prim2SF q) as [s|s| |s m e]; cbn; try discriminate.
  - intros _ [= <-]. lia.
  - intros -> [= <-]. pose proof (Float64Facts.magnitude_nonneg m e). lia.
Qed.

(** The truncated quotient of two numbers of opposite signs is below 1. *)
Lemma py_int_div_opposite_signs t s z :
  (flt 0 t /\ flt s 0) \/ (flt t 0 /\ flt 0 s) ->
  py_int (t / s)%float = Ok z -> z < 1.
Proof.
  unfold flt. rewrite !FloatAxioms.ltb_spec.
  change (Prim2SF 0) with (S754_zero false). intros H.
  apply py_int_not_positive. rewrite FloatAxioms.div_spec.
  now apply SFdiv_opposite_signs.
Qed.

Lemma py_int_div_by_zero t s :
  (s =? 0)%float = true -> exists e, py_int (t / s)%float = Raise e /\ conversion_error e.
Proof.
  intros Z0. unfold py_int, Float64.trunc, conversion_error.
  destruct (Float64Facts.div_by_zero t s Z0) as [E|[sg E]]; rewrite E; eauto.
Qed.

Lemma div_nan_l t s : is_nan t = true -> Prim2SF (t / s) = S754_nan.
Proof.
  intros N. apply Float64Facts.is_nan_spec in N.
  now rewrite FloatAxioms.div_spec, N.
Qed.

Lemma div_nan_r t s : is_nan s = true -> Prim2SF (t / s) = S754_nan.
Proof.
  intros N. apply Float64Facts.is_nan_spec in N.
  rewrite FloatAxioms.div_spec, N. now destruct (Prim2SF t).
Qed.

End Float64Signs.

Section Further.
Variable interp_at : DataArray -> float -> float -> float.

(** ** What every result satisfies *)

(** X1. A grid returned for an aligned raster is aligned: it has one row per
    point of its [lon] coordinate and one cell per point of its [lat]
    coordinate, whichever method produced it. *)
Theorem resample_keeps_alignment da target method out :
  aligned da ->
  resample_raster interp_at da target method = Ok out ->
  aligned out.
Proof.
  intros Ha R. destruct target as [tl ta]. unfold resample_raster in R.
  destruct (getitem (lon da) 1) as [lon1|]; cbn [bind] in R; [|discriminate].
  destruct (getitem (lon da) 0) as [lon0|]; cbn [bind] in R; [|discriminate].
  destruct (getitem (lat da) 1) as [lat1|]; cbn [bind] in R; [|discriminate].
  destruct (getitem (lat da) 0) as [lat0|]; cbn [bind] in R; [|discriminate].
  destruct (method =? "downsample")%string.
  - destruct (py_int (tl / (lon1 - lon0))) as [fl|e]; cbn [bind] in R; [|discriminate].
    destruct (py_int (ta / (lat1 - lat0))) as [fa|e]; cbn [bind] in R; [|discriminate].
    destruct ((fl <? 1) || (fa <? 1)); [discriminate|]. injection R as <-.
    destruct (coarsen_shape da (Z.to_nat fa) (Z.to_nat fl) Ha) as [Hrows Hcols].
    split.
    + now rewrite Hrows, coarsen_lon_length.
    + now rewrite coarsen_lat_length.
  - destruct (method =? "upsample")%string; [|discriminate].
    destruct (nanmin (lon da)) as [lo|]; cbn [bind] in R; [|discriminate].
    destruct (nanmax (lon da)) as [hi|]; cbn [bind] in R; [|discriminate].
    destruct (arange lo hi tl) as [xs|]; cbn [bind] in R; [|discriminate].
    destruct (nanmin (lat da)) as [lo'|]; cbn [bind] in R; [|discriminate].
    destruct (nanmax (lat da)) as [hi'|]; cbn [bind] in R; [|discriminate].
    destruct (arange lo' hi' ta) as [ys|]; cbn [bind] in R; [|discriminate].
    injection R as <-. exact (interp_shape interp_at da xs ys).
Qed.

(** ** Which errors are raised *)

Lemma py_int_error x e : py_int x = Raise e -> conversion_error e.
Proof.
  unfold py_int, conversion_error.
  destruct (Float64.trunc x); intros [= <-]; auto.
Qed.

Lemma arange_raises start stop step e : arange start stop step = Raise e -> arange_error e.
Proof.
  unfold arange, arange_length, arange_error.
  destruct (arange_underflow start stop step); cbn [bind]; [discriminate|].
  destruct (Float64.ceil ((stop - start) / step)) as [|s|z]; cbn [bind].
  - intros [= <-]. auto.
  - intros [= <-]. auto.
  - destruct ((intp_min <=? z) && (z <=? intp_max_as_double)); cbn [bind];
      [discriminate|]. intros [= <-]. auto.
Qed.

(** X10. The indexing error is raised exactly when a coordinate has fewer
    than two points. *)
Theorem index_error_iff_short_axis da target method :
  resample_raster interp_at da target method = Raise IndexError <->
  (length (lon da) < 2)%nat \/ (length (lat da) < 2)%nat.
Proof.
  destruct target as [tl ta]. split.
  - intros R.
    destruct (Nat.lt_ge_cases (length (lon da)) 2) as [Hn|Hn]; [now left|].
    destruct (Nat.lt_ge_cases (length (lat da)) 2) as [Hm|Hm]; [now right|].
    exfalso.
    destruct (String.eqb_spec method "downsample") as [->|Nd].
    + rewrite resample_downsample in R by assumption.
      destruct (py_int (tl / lon_step da)) as [fl|e] eqn:El; cbn [bind] in R.
      * destruct (py_int (ta / lat_step da)) as [fa|e] eqn:Ea; cbn [bind] in R.
        -- destruct ((fl <? 1) || (fa <? 1)); discriminate.
        -- injection R as ->. destruct (py_int_error _ _ Ea); discriminate.
      * injection R as ->. destruct (py_int_error _ _ El); discriminate.
    + destruct (String.eqb_spec method "upsample") as [->|Nu].
      * rewrite resample_upsample in R by assumption.
        destruct (arange (axis_min (lon da)) (axis_max (lon da)) tl) as [xs|e] eqn:Ex;
          cbn [bind] in R.
        -- destruct (arange (axis_min (lat da)) (axis_max (lat da)) ta) as [ys|e] eqn:Ey;
             cbn [bind] in R; [discriminate|].
           injection R as ->. destruct (arange_raises _ _ _ _ Ey); discriminate.
        -- injection R as ->. destruct (arange_raises _ _ _ _ Ex); discriminate.
      * rewrite resample_other in R by assumption. discriminate.
  - intros H. unfold resample_raster.
    destruct (Nat.lt_ge_cases (length (lon da)) 2) as [Hn|Hn].
    + now rewrite (getitem_outside (lon da) 1) by lia.
    + rewrite !(getitem_nth (lon da)) by lia. cbn [bind].
      destruct H as [H|H]; [lia|].
      now rewrite (getitem_outside (lat da) 1) by lia.
Qed.

(** ** Downsampling: when it fails *)

(** X2. If a target step and the current step along the same axis have
    opposite signs (a positive target on a descending coordinate, or a
    negative target on an ascending one), downsampling never returns a grid:
    the factor, if it can be computed at all, is below 1. *)
Theorem downsample_opposite_signs_fails da tl ta :
  (2 <= length (lon da))%nat -> (2 <= length (lat da))%nat ->
  (flt 0 tl /\ flt (lon_step da) 0) \/ (flt tl 0 /\ flt 0 (lon_step da)) \/
  (flt 0 ta /\ flt (lat_step da) 0) \/ (flt ta 0 /\ flt 0 (lat_step da)) ->
  exists e, resample_raster interp_at da (tl, ta) "downsample" = Raise e.
Proof.
  intros Hn Hm H. rewrite resample_downsample by assumption.
  destruct (py_int (tl / lon_step da)) as [fl|e] eqn:El; cbn [bind]; [|eauto].
  destruct (py_int (ta / lat_step da)) as [fa|e] eqn:Ea; cbn [bind]; [|eauto].
  assert (L : fl < 1 \/ fa < 1).
  { destruct H as [H|[H|[H|H]]].
    - left. apply (Float64Signs.py_int_div_opposite_signs tl (lon_step da)); auto.
    - left. apply (Float64Signs.py_int_div_opposite_signs tl (lon_step da)); auto.
    - right. apply (Float64Signs.py_int_div_opposite_signs ta (lat_step da)); auto.
    - right. apply (Float64Signs.py_int_div_opposite_signs ta (lat_step da)); auto. }
  replace ((fl <? 1) || (fa <? 1)) with true; [eauto|].
  symmetry. apply orb_true_iff. now rewrite !Z.ltb_lt.
Qed.

(** X3. If the first two points of a coordinate coincide, so that the
    current step is zero, downsampling fails in the conversion of the
    quotient to an integer (the quotient is NaN or infinite), not with the
    resolution error of the function. *)
Theorem downsample_zero_step_fails da tl ta :
  (2 <= length (lon da))%nat -> (2 <= length (lat da))%nat ->
  (lon_step da =? 0)%float = true \/ (lat_step da =? 0)%float = true ->
  exists e,
    resample_raster interp_at da (tl, ta) "downsample" = Raise e /\ conversion_error e.
Proof.
  intros Hn Hm H. rewrite resample_downsample by assumption.
  destruct H as [Z0|Z0].
  - destruct (Float64Signs.py_int_div_by_zero tl _ Z0) as (e & -> & He). cbn [bind]. eauto.
  - destruct (py_int (tl / lon_step da)) as [fl|e] eqn:El; cbn [bind].
    + destruct (Float64Signs.py_int_div_by_zero ta _ Z0) as (e & -> & He). cbn [bind]. eauto.
    + exists e. split; [reflexivity|]. exact (py_int_error _ _ El).
Qed.

(** X4. A NaN target step along [lon] is refused by both methods: when
    downsampling, by the conversion of the quotient to an integer; when
    upsampling, by [arange], which cannot compute a length. *)
Theorem nan_target_fails da tl ta :
  (2 <= length (lon da))%nat -> (2 <= length (lat da))%nat ->
  is_nan tl = true ->
  resample_raster interp_at da (tl, ta) "downsample"
  = Raise (ValueError "cannot convert float NaN to integer") /\
  exists e, resample_raster interp_at da (tl, ta) "upsample" = Raise e.
Proof.
  intros Hn Hm N. split.
  - rewrite resample_downsample by assumption.
    unfold py_int at 1, Float64.trunc. now rewrite (Float64Signs.div_nan_l tl _ N).
  - rewrite resample_upsample by assumption.
    unfold arange, arange_length, arange_underflow, Float64.ceil.
    rewrite FloatAxioms.eqb_spec, (Float64Signs.div_nan_r _ tl N). cbn. eauto.
Qed.

(** ** Downsampling: what it returns *)

Lemma downsample_result da tl ta f_lon f_lat :
  (2 <= length (lon da))%nat -> (2 <= length (lat da))%nat ->
  computed_factors da (tl, ta) f_lon f_lat ->
  resample_raster interp_at da (tl, ta) "downsample" = Ok (coarsen_mean da f_lat f_lon).
Proof.
  intros Hn Hm (El & Ea & Fl & Fa). cbn [fst snd] in El, Ea.
  rewrite resample_downsample, El, Ea by assumption. cbn [bind].
  replace ((Z.of_nat f_lon <? 1) || (Z.of_nat f_lat <? 1)) with false.
  - now rewrite !Nat2Z.id.
  - symmetry. apply orb_false_iff. rewrite !Z.ltb_ge. lia.
Qed.




Lemma grid_ext (u v : list (list float)) n m :
  length u = n -> Forall (fun row => length row = m) u ->
  length v = n -> Forall (fun row => length row = m) v ->
  (forall i j, (i < n)%nat -> (j < m)%nat ->
     nth j (nth i u []) nan = nth j (nth i v []) nan) ->
  u = v.
Proof.
  intros Lu Fu Lv Fv H. rewrite Forall_forall in Fu, Fv.
  apply nth_ext with (d := []) (d' := []); [congruence|].
  intros i Hi.
  assert (Ru : length (nth i u []) = m) by (apply Fu, nth_In; exact Hi).
  assert (Rv : length (nth i v []) = m) by (apply Fv, nth_In; lia).
  apply nth_ext with (d := nan) (d' := nan); [congruence|].
  intros j Hj. apply H; lia.
Qed.

Lemma block_ext da da' f_lon f_lat i j :
  (i < length (lon da) / f_lon)%nat -> (j < length (lat da) / f_lat)%nat ->
  (forall r c, (r < length (lon da) / f_lon * f_lon)%nat ->
               (c < length (lat da) / f_lat * f_lat)%nat ->
               cell da' r c = cell da r c) ->
  block da' f_lon f_lat i j = block da f_lon f_lat i j.
Proof.
  intros Hi Hj H. unfold block. apply flat_map_ext_in. intros a Ha. apply in_seq in Ha.
  apply map_ext_in. intros b Hb. apply in_seq in Hb. apply H; nia.
Qed.

(** X7. The cells after the last whole block never reach the result: two
    aligned rasters with the same coordinates whose cells agree on the whole
    blocks are downsampled to the same grid. *)
Theorem downsample_ignores_trailing_cells da da' tl ta f_lon f_lat :
  lon da' = lon da -> lat da' = lat da ->
  aligned da -> aligned da' ->
  (2 <= length (lon da))%nat -> (2 <= length (lat da))%nat ->
  computed_factors da (tl, ta) f_lon f_lat ->
  (forall r c, (r < length (lon da) / f_lon * f_lon)%nat ->
               (c < length (lat da) / f_lat * f_lat)%nat ->
               cell da' r c = cell da r c) ->
  resample_raster interp_at da' (tl, ta) "downsample"
  = resample_raster interp_at da (tl, ta) "downsample".
Proof.
  intros Elon Elat Ha Ha' Hn Hm F H.
  assert (F' : computed_factors da' (tl, ta) f_lon f_lat).
  { unfold computed_factors, lon_step, lat_step in *. now rewrite Elon, Elat. }
  rewrite (downsample_result da tl ta f_lon f_lat), (downsample_result da' tl ta f_lon f_lat)
    by (rewrite ?Elon, ?Elat; assumption).
  f_equal.
  destruct (coarsen_shape da f_lat f_lon Ha) as [Hrows Hcols].
  destruct (coarsen_shape da' f_lat f_lon Ha') as [Hrows' Hcols'].
  rewrite Elon in Hrows'. rewrite Elat in Hcols'.
  assert (V : values (coarsen_mean da' f_lat f_lon) = values (coarsen_mean da f_lat f_lon)).
  { apply (grid_ext _ _ _ _ Hrows' Hcols' Hrows Hcols). intros i j Hi Hj.
    change (cell (coarsen_mean da' f_lat f_lon) i j = cell (coarsen_mean da f_lat f_lon) i j).
    rewrite !coarsen_cell by (rewrite ?Elon, ?Elat; assumption).
    f_equal. now apply block_ext. }
  unfold coarsen_mean in *. cbn [values] in V. now rewrite V, Elon, Elat.
Qed.

Lemma filter_none {A : Type} (f : A -> bool) (l : list A) :
  Forall (fun x => f x = false) l -> filter f l = [].
Proof.
  induction 1 as [|x l Hx _ IH]; cbn; [reflexivity|]. now rewrite Hx, IH.
Qed.

(** X8. A block that holds nothing but NaN gives a NaN cell. *)
Theorem downsample_all_nan_block da tl ta f_lon f_lat i j :
  aligned da ->
  (2 <= length (lon da))%nat -> (2 <= length (lat da))%nat ->
  computed_factors da (tl, ta) f_lon f_lat ->
  (i < length (lon da) / f_lon)%nat -> (j < length (lat da) / f_lat)%nat ->
  Forall (fun x => is_nan x = true) (block da f_lon f_lat i j) ->
  exists out,
    resample_raster interp_at da (tl, ta) "downsample" = Ok out /\
    cell out i j = nan.
Proof.
  intros Ha Hn Hm F Hi Hj N. exists (coarsen_mean da f_lat f_lon).
  split; [now apply downsample_result|].
  rewrite coarsen_cell by assumption. unfold nanmean.
  rewrite filter_none; [reflexivity|].
  eapply Forall_impl; [|exact N]. intros x Hx. cbn beta. now rewrite Hx.
Qed.

(** ** Upsampling: where the new coordinates start *)

(** X9. Every coordinate of an upsampled grid that is not empty starts at
    the minimum of the input coordinate, and its second point, if there is
    one, is that minimum plus the target step. *)
Theorem upsample_starts_at_minimum da tl ta out :
  (2 <= length (lon da))%nat -> (2 <= length (lat da))%nat ->
  resample_raster interp_at da (tl, ta) "upsample" = Ok out ->
  (forall x, nth_error (lon out) 0 = Some x -> x = axis_min (lon da)) /\
  (forall x, nth_error (lon out) 1 = Some x -> x = (axis_min (lon da) + tl)%float) /\
  (forall y, nth_error (lat out) 0 = Some y -> y = axis_min (lat da)) /\
  (forall y, nth_error (lat out) 1 = Some y -> y = (axis_min (lat da) + ta)%float).
Proof.
  intros Hn Hm R. rewrite resample_upsample in R by assumption.
  destruct (arange (axis_min (lon da)) (axis_max (lon da)) tl) as [xs|e] eqn:Ex;
    cbn [bind] in R; [|discriminate].
  destruct (arange (axis_min (lat da)) (axis_max (lat da)) ta) as [ys|e] eqn:Ey;
    cbn [bind] in R; [|discriminate].
  injection R as <-. cbn [lon lat interp].
  pose proof (arange_items _ _ _ _ Ex) as Ix. pose proof (arange_items _ _ _ _ Ey) as Iy.
  repeat split; intros p Hp.
  - rewrite Ix in Hp. destruct (length xs) as [|n]; cbn in Hp; congruence.
  - rewrite Ix in Hp. destruct (length xs) as [|[|n]]; cbn in Hp; congruence.
  - rewrite Iy in Hp. destruct (length ys) as [|n]; cbn in Hp; congruence.
  - rewrite Iy in Hp. destruct (length ys) as [|[|n]]; cbn in Hp; congruence.
Qed.

End Further.

(** ** The further properties on concrete grids *)


Lemma resample_keeps_alignment_witness :
  aligned (interp interp_linear grid3 [0; 0.5; 1; 1.5]%float [10; 15; 20; 25]%float).
Proof.
  apply (resample_keeps_alignment interp_linear grid3 (0.5, 5)%float "upsample");
    [exact grid3_aligned | reflexivity].
Defined.

Lemma downsample_opposite_signs_fails_witness :
  exists e, resample_raster interp_nan grid_desc (2, 1)%float "downsample" = Raise e.
Proof.
  apply (downsample_opposite_signs_fails interp_nan grid_desc 2 1);
    [cbn; lia | cbn; lia | left; split; reflexivity].
Defined.

Lemma downsample_zero_step_fails_witness :
  exists e,
    resample_raster interp_nan grid_dup (1, 1)%float "downsample" = Raise e /\
    conversion_error e.
Proof.
  apply (downsample_zero_step_fails interp_nan grid_dup 1 1);
    [cbn; lia | cbn; lia | left; reflexivity].
Defined.

Lemma nan_target_fails_witness :
  resample_raster interp_nan grid3 (nan, 10)%float "downsample"
  = Raise (ValueError "cannot convert float NaN to integer") /\
  exists e, resample_raster interp_nan grid3 (nan, 10)%float "upsample" = Raise e.
Proof.
  apply (nan_target_fails interp_nan grid3 nan 10); [cbn; lia | cbn; lia | reflexivity].
Defined.



Lemma downsample_ignores_trailing_cells_witness :
  resample_raster interp_nan grid5_other (2, 1)%float "downsample"
  = resample_raster interp_nan grid5 (2, 1)%float "downsample".
Proof.
  apply (downsample_ignores_trailing_cells interp_nan grid5 grid5_other 2 1 2 1);
    [reflexivity | reflexivity
    | split; [reflexivity | repeat constructor]
    | split; [reflexivity | repeat constructor]
    | cbn; lia | cbn; lia
    | repeat split; (reflexivity || lia) |].
  intros [|[|[|[|r]]]] [|[|c]]; cbn; intros Hr Hc; try lia; reflexivity.
Defined.

Lemma downsample_all_nan_block_witness :
  exists out,
    resample_raster interp_nan grid_gap (2, 1)%float "downsample" = Ok out /\
    cell out 0 1 = nan.
Proof.
  apply (downsample_all_nan_block interp_nan grid_gap 2 1 2 1 0 1);
    [split; [reflexivity | repeat constructor] | cbn; lia | cbn; lia
    | repeat split; (reflexivity || lia) | cbn; lia | cbn; lia | repeat constructor].
Defined.

Lemma upsample_starts_at_minimum_witness :
  let out := interp interp_linear grid3 [0; 0.5; 1; 1.5]%float [10; 15; 20; 25]%float in
  (forall x, nth_error (lon out) 0 = Some x -> x = axis_min (lon grid3)) /\
  (forall x, nth_error (lon out) 1 = Some x -> x = (axis_min (lon grid3) + 0.5)%float) /\
  (forall y, nth_error (lat out) 0 = Some y -> y = axis_min (lat grid3)) /\
  (forall y, nth_error (lat out) 1 = Some y -> y = (axis_min (lat grid3) + 5)%float).
Proof.
  apply (upsample_starts_at_minimum interp_linear grid3 0.5 5);
    [cbn; lia | cbn; lia | reflexivity].
Defined.
